(** * RoleDao: permission gate, attribute filter and audit emission

    A shallow embedding of [src/services/user/role.dao.ts].  The handler
    class [RoleDao] is embedded operation by operation in a state-and-exception
    monad whose state records the repository, the calls made on it, the
    activities emitted on the event channel and the number of clock readings.

    Conventions of the embedding:
    - values of TypeScript type [any] (what the attribute filter consumes and
      produces, what the repository returns) live in the universe [value] of
      JavaScript values; numbers are integers ([Z]);
    - arguments are well typed for their annotation or cast: [User],
      [CreateRoleDto] and [Permission] arguments are objects, [id] and
      [permissionId] are strings;
    - the collaborators that are not part of the file (the TypeORM repository,
      [getPermission] of the authorization helper, the clock) are parameters;
      they return normally and the subscribers of the event channel do not
      throw;
    - in [RoleDao] the repository leaves the objects handed to it as they
      were; [saveInPlace] embeds [save] once more with the object handed to
      the repository followed through the call, for a repository that writes
      into it, and agrees with [save] for one that does not;
    - [addPermissionAny] embeds [addPermission] once more for data of any
      type and agrees with it on objects;
    - log lines have no effect beyond the property reads in their text. *)

From stdpp Require Import gmap strings list fin_maps pretty.

Set Warnings "-register-all".

(** ** JavaScript values *)

Inductive value : Type :=
| VUndefined
| VNull
| VBool (b : bool)
| VNum (n : Z)
| VStr (s : string)
| VArr (elems : list value)
| VObj (fields : gmap string value).

(** Objects are finite maps from property names to values. *)
Abbreviation obj := (gmap string value).

(** [ToBoolean]: what [if (v)], [!v] and [v ? a : b] test. *)
Definition truthy (v : value) : bool :=
  match v with
  | VUndefined | VNull => false
  | VBool b => b
  | VNum n => negb (Z.eqb n 0)
  | VStr s => negb (String.eqb s EmptyString)
  | VArr _ | VObj _ => true
  end.

Definition nullish (v : value) : bool :=
  match v with
  | VUndefined | VNull => true
  | _ => false
  end.

(** [String(v)].  Array elements are joined with commas, [null] and
    [undefined] elements rendering as the empty string. *)
Fixpoint JsString (v : value) : string :=
  match v with
  | VUndefined => "undefined"
  | VNull => "null"
  | VBool true => "true"
  | VBool false => "false"
  | VNum n => pretty n
  | VStr s => s
  | VArr l =>
      String.concat ","
        (map (fun e => if nullish e then EmptyString else JsString e) l)
  | VObj _ => "[object Object]"
  end.

(** The characters of a string, as the one-character strings that indexing
    and iteration yield. *)
Fixpoint chars (s : string) : list value :=
  match s with
  | EmptyString => []
  | String c rest => VStr (String c EmptyString) :: chars rest
  end.

Definition indexed (l : list value) : obj :=
  list_to_map (imap (fun i x => (pretty i, x)) l).

(** The own enumerable properties of a value: what [{...v}] copies. *)
Definition ownProps (v : value) : obj :=
  match v with
  | VObj m => m
  | VArr l => indexed l
  | VStr s => indexed (chars s)
  | _ => ∅
  end.

(** [v.k].  [None] is the [TypeError] of reading a property of [null] or
    [undefined].  Inherited (prototype) properties are not values of the model
    and read as [undefined]. *)
Definition getProp (v : value) (k : string) : option value :=
  match v with
  | VUndefined | VNull => None
  | VArr l =>
      Some (if decide (k = "length") then VNum (Z.of_nat (length l))
            else default VUndefined (ownProps v !! k))
  | VStr s =>
      Some (if decide (k = "length") then VNum (Z.of_nat (String.length s))
            else default VUndefined (ownProps v !! k))
  | _ => Some (default VUndefined (ownProps v !! k))
  end.

(** The elements a [for (const x of v)] loop visits; [None] is the
    [TypeError] of iterating a value that is not iterable. *)
Definition iterate (v : value) : option (list value) :=
  match v with
  | VArr l => Some l
  | VStr s => Some (chars s)
  | _ => None
  end.

(** ** Activity stream *)

(** Modelled from the spec: the enumeration [ActivityType] of the activity
    helper, which is not among the files.  Its members are the action kinds of
    the glossary (create, read, update, delete, add, remove), which are all
    that the handler refers to. *)
Inductive ActivityType : Type := CREATE | READ | UPDATE | DELETE | ADD | REMOVE.

(** Modelled from the spec: the closed enumeration of actor types of the
    activity stream interface, which is not among the files.  The handler
    refers to [Person] only. *)
Inductive ActorType : Type := Person | System.

Record Actor : Type := { actor_id : value; actor_type : ActorType }.

Record Activity : Type := {
  actor : Actor;
  object : value;
  resource : string;
  target : option value;
  timestamp : Z;
  took : Z;
  type : ActivityType;
}.

(** ** Exceptions *)

Inductive Exception : Type :=
| RecordNotFoundException (id : string)
| RecordsNotFoundException (resource : string)
| UserNotAuthorizedException (userId : value) (action : ActivityType)
    (resource : string)
| TypeError.

Inductive Result (A : Type) : Type :=
| Return (a : A)
| Throw (e : Exception).
Arguments Return {A} a.
Arguments Throw {A} e.

(** ** Authorization helper (interface) *)

(** Modelled from the spec: the resolution result of the authorization helper,
    which is not among the files: whether the action is granted, and the
    filter bound to the resolved attribute mask. *)
Record AuthPermission : Type := {
  granted : bool;
  filter : value -> value;
}.

(** ** Repository (interface) *)

(** [Repository<Role>] of the ORM, over a store of type [Store]: [find] and
    [findOne] take the [relations] option and read the store; [save] returns
    the saved record. *)
Class Repository (Store : Type) : Type := {
  repo_find : list string -> Store -> value;
  repo_findOne : string -> list string -> Store -> value;
  repo_save : value -> Store -> Store * value;
  repo_remove : value -> Store -> Store;
}.

(** A call made on the repository. *)
Inductive StoreCall : Type :=
| CallFind (relations : list string)
| CallFindOne (id : string) (relations : list string)
| CallSave (record : value)
| CallRemove (record : value).

Definition isFetch (c : StoreCall) : bool :=
  match c with
  | CallFind _ | CallFindOne _ _ => true
  | _ => false
  end.

Definition isSave (c : StoreCall) : bool :=
  match c with
  | CallSave _ => true
  | _ => false
  end.

(** ** The world an operation runs in *)

Record World (Store : Type) : Type := mkWorld {
  store : Store;
  calls : list StoreCall;
  emitted : list (ActivityType * Activity);
  ticks : nat;
}.
Arguments mkWorld {Store} _ _ _ _.
Arguments store {Store} _.
Arguments calls {Store} _.
Arguments emitted {Store} _.
Arguments ticks {Store} _.

(** State and exceptions: a thrown exception keeps the effects made so far. *)
Definition M (Store A : Type) : Type := World Store -> Result A * World Store.

Definition ret {Store A} (a : A) : M Store A := fun w => (Return a, w).

Definition throw {Store A} (e : Exception) : M Store A := fun w => (Throw e, w).

Definition bind {Store A B} (m : M Store A) (k : A -> M Store B) : M Store B :=
  fun w =>
    match m w with
    | (Return a, w') => k a w'
    | (Throw e, w') => (Throw e, w')
    end.

Notation "'let*' x ':=' m 'in' k" := (bind m (fun x => k))
  (at level 10, x pattern, m at level 100, k at level 200, only parsing).
Notation "m ';;' k" := (bind m (fun _ => k))
  (at level 100, k at level 200, right associativity, only parsing).

(** A value that may be a [TypeError]. *)
Definition orTypeError {Store A} (o : option A) : M Store A :=
  match o with
  | Some a => ret a
  | None => throw TypeError
  end.

(** ** The handler *)

Section RoleDao.

Context {Store : Type} `{Repository Store}.

(** [Date.now()] is the next reading of the clock. *)
Variable clock : nat -> Z.

(** [getPermission(user, isOwnerOrMember, action, resource)] of the
    authorization helper. *)
Variable getPermission : obj -> bool -> ActivityType -> string -> AuthPermission.

Definition Date_now : M Store Z :=
  fun w =>
    (Return (clock (ticks w)),
     mkWorld (store w) (calls w) (emitted w) (S (ticks w))).

Definition find (relations : list string) : M Store value :=
  fun w =>
    (Return (repo_find relations (store w)),
     mkWorld (store w) (calls w ++ [CallFind relations]) (emitted w) (ticks w)).

Definition findOne (id : string) (relations : list string) : M Store value :=
  fun w =>
    (Return (repo_findOne id relations (store w)),
     mkWorld (store w) (calls w ++ [CallFindOne id relations]) (emitted w)
       (ticks w)).

Definition saveRecord (record : value) : M Store value :=
  fun w =>
    let saved := repo_save record (store w) in
    (Return saved.2,
     mkWorld saved.1 (calls w ++ [CallSave record]) (emitted w) (ticks w)).

Definition removeRecord (record : value) : M Store unit :=
  fun w =>
    (Return tt,
     mkWorld (repo_remove record (store w)) (calls w ++ [CallRemove record])
       (emitted w) (ticks w)).

(** [event.emit(name, activity)]. *)
Definition emit (name : ActivityType) (activity : Activity) : M Store unit :=
  fun w =>
    (Return tt,
     mkWorld (store w) (calls w) (emitted w ++ [(name, activity)]) (ticks w)).

(** [v.k] inside an operation. *)
Definition member (v : value) (k : string) : M Store value :=
  orTypeError (getProp v k).

(** [user.id]; [user] is an object. *)
Definition userId (user : obj) : value := default VUndefined (user !! "id").

Definition this_resource : string := "role".
Definition this_rolePermissionResource : string := "rolepermission".

(** An object literal [{id: i, type: t}]. *)
Definition idType (i : value) (t : string) : value :=
  VObj (<["id" := i]> (<["type" := VStr t]> ∅)).

Definition getAll (user : obj) : M Store value :=
  let* started := Date_now in
  let* records := find ["permissions"] in
  let isOwnerOrMember := false in
  let action := READ in
  let permission := getPermission user isOwnerOrMember action this_resource in
  if granted permission then
    if negb (truthy records) then
      throw (RecordsNotFoundException this_resource)
    else
      let* ended := Date_now in
      emit action
        {| actor := {| actor_id := userId user; actor_type := Person |};
           object := VNull;
           resource := this_resource;
           target := None;
           timestamp := ended;
           took := (ended - started)%Z;
           type := action |} ;;
      let* length := member records "length" in
      let* total := member records "length" in
      ret (VObj (<["data" := filter permission records]>
                 (<["length" := length]> (<["total" := total]> ∅))))
  else
    throw (UserNotAuthorizedException (userId user) action this_resource).

Definition getOne (user : obj) (id : string) : M Store value :=
  let* started := Date_now in
  let* record := findOne id ["permissions"] in
  let isOwnerOrMember := false in
  let action := READ in
  let permission := getPermission user isOwnerOrMember action this_resource in
  if granted permission then
    if negb (truthy record) then
      throw (RecordNotFoundException id)
    else
      let* ended := Date_now in
      let* recordId := member record "id" in
      emit action
        {| actor := {| actor_id := userId user; actor_type := Person |};
           object := idType recordId this_resource;
           resource := this_resource;
           target := None;
           timestamp := ended;
           took := (ended - started)%Z;
           type := action |} ;;
      ret (filter permission record)
  else
    throw (UserNotAuthorizedException (userId user) action this_resource).

Definition save (user : obj) (data : obj) : M Store value :=
  let* started := Date_now in
  let newRecord := VObj data in
  let isOwnerOrMember := false in
  let action :=
    if truthy (default VUndefined (data !! "id")) then UPDATE else CREATE in
  let permission := getPermission user isOwnerOrMember action this_resource in
  if granted permission then
    let filteredData := filter permission newRecord in
    let* savedData := saveRecord filteredData in
    let* ended := Date_now in
    emit action
      {| actor := {| actor_id := userId user; actor_type := Person |};
         object := VObj (<["type" := VStr this_resource]> (ownProps savedData));
         resource := this_resource;
         target := None;
         timestamp := ended;
         took := (ended - started)%Z;
         type := action |} ;;
    (* the log line reads filteredData.id *)
    member filteredData "id" ;;
    ret filteredData
  else
    throw (UserNotAuthorizedException (userId user) action this_resource).

Definition remove (user : obj) (id : string) : M Store value :=
  let* started := Date_now in
  let* recordToRemove := findOne id [] in
  let isOwnerOrMember := false in
  let action := DELETE in
  let permission := getPermission user isOwnerOrMember action this_resource in
  if granted permission then
    if truthy recordToRemove then
      removeRecord recordToRemove ;;
      let* ended := Date_now in
      emit action
        {| actor := {| actor_id := userId user; actor_type := Person |};
           object := idType (VStr id) "role";
           resource := this_resource;
           target := None;
           timestamp := ended;
           took := (ended - started)%Z;
           type := action |} ;;
      ret (VBool true)
    else
      throw (RecordNotFoundException id)
  else
    throw (UserNotAuthorizedException (userId user) action this_resource).

Definition getPermissions (user : obj) (id : string) : M Store value :=
  let* started := Date_now in
  let* record := findOne id ["permissions"] in
  let isOwnerOrMember := false in
  let action := READ in
  let permission :=
    getPermission user isOwnerOrMember action this_rolePermissionResource in
  if granted permission then
    if negb (truthy record) then
      throw (RecordNotFoundException id)
    else
      let* ended := Date_now in
      emit action
        {| actor := {| actor_id := userId user; actor_type := Person |};
           object := VNull;
           resource := this_rolePermissionResource;
           target := Some (idType (VStr id) this_resource);
           timestamp := ended;
           took := (ended - started)%Z;
           type := action |} ;;
      let* permissions := member record "permissions" in
      ret (filter permission permissions)
  else
    throw (UserNotAuthorizedException (userId user) action
             this_rolePermissionResource).

(** [target.permissions.push(item)]: the record with the item appended to
    its [permissions] array.  Anything but an object holding an array there
    has no [push] to call. *)
Definition pushPermission (target : value) (item : value) : M Store value :=
  match target with
  | VObj m =>
      match m !! "permissions" with
      | Some (VArr l) => ret (VObj (<["permissions" := VArr (l ++ [item])]> m))
      | _ => throw TypeError
      end
  | _ => throw TypeError
  end.

Definition addPermission (user : obj) (id : string) (data : obj) : M Store value :=
  let* started := Date_now in
  let newRecord := VObj data in
  let isOwnerOrMember := false in
  let action := CREATE in
  let permission :=
    getPermission user isOwnerOrMember action this_rolePermissionResource in
  if granted permission then
    let* recordToUpdate := findOne id ["permissions"] in
    if truthy recordToUpdate then
      let* recordToUpdate := pushPermission recordToUpdate newRecord in
      let filteredData := filter permission recordToUpdate in
      saveRecord recordToUpdate ;;
      let* ended := Date_now in
      let* recordId := member recordToUpdate "id" in
      emit ADD
        {| actor := {| actor_id := userId user; actor_type := Person |};
           object := idType recordId "permission";
           resource := this_rolePermissionResource;
           target := Some (idType (VStr id) this_resource);
           timestamp := ended;
           took := (ended - started)%Z;
           type := ADD |} ;;
      (* the log line reads newRecord.action and recordToUpdate.id, both
         objects here *)
      ret filteredData
    else
      throw (RecordNotFoundException id)
  else
    throw (UserNotAuthorizedException (userId user) action
             this_rolePermissionResource).

(** The loop of [removePermission]: [removedItem] is the last relation whose
    id reads as [permissionId], [updatedPermissions] the others in order. *)
Fixpoint scanRelations (permissionId : string) (relations : list value)
    (removedItem : value) (updatedPermissions : list value)
    : option (value * list value) :=
  match relations with
  | [] => Some (removedItem, updatedPermissions)
  | relation :: rest =>
      match getProp relation "id" with
      | None => None
      | Some relationId =>
          if decide (JsString relationId = permissionId) then
            scanRelations permissionId rest relation updatedPermissions
          else
            scanRelations permissionId rest removedItem
              (updatedPermissions ++ [relation])
      end
  end.

(** [target.permissions = updated]. *)
Definition assignPermissions (target : value) (updated : list value)
    : M Store value :=
  match target with
  | VObj m => ret (VObj (<["permissions" := VArr updated]> m))
  | _ => throw TypeError
  end.

Definition removePermission (user : obj) (id : string) (permissionId : string)
    : M Store value :=
  let* started := Date_now in
  let isOwnerOrMember := false in
  let action := DELETE in
  let permission :=
    getPermission user isOwnerOrMember action this_rolePermissionResource in
  if granted permission then
    let* recordToUpdate := findOne id ["permissions"] in
    if truthy recordToUpdate then
      let* permissions := member recordToUpdate "permissions" in
      let* relations := orTypeError (iterate permissions) in
      let* scanned :=
        orTypeError (scanRelations permissionId relations VUndefined []) in
      let removedItem := scanned.1 in
      let updatedPermissions := scanned.2 in
      let* recordToUpdate :=
        if truthy removedItem then
          let* recordToUpdate :=
            assignPermissions recordToUpdate updatedPermissions in
          saveRecord recordToUpdate ;;
          ret recordToUpdate
        else ret recordToUpdate in
      let filteredData := filter permission recordToUpdate in
      saveRecord recordToUpdate ;;
      let* ended := Date_now in
      emit REMOVE
        {| actor := {| actor_id := userId user; actor_type := Person |};
           object := idType (VStr permissionId) "permission";
           resource := this_rolePermissionResource;
           target := Some (idType (VStr id) this_resource);
           timestamp := ended;
           took := (ended - started)%Z;
           type := REMOVE |} ;;
      ret filteredData
    else
      throw (RecordNotFoundException id)
  else
    throw (UserNotAuthorizedException (userId user) action
             this_rolePermissionResource).

(** *** The operations as one interface *)

Inductive Operation : Type :=
| List
| Get (id : string)
| CreateOrUpdate (data : obj)
| Delete (id : string)
| GetCollection (id : string)
| AddToCollection (id : string) (data : obj)
| RemoveFromCollection (id : string) (permissionId : string).

Definition perform (user : obj) (op : Operation) : M Store value :=
  match op with
  | List => getAll user
  | Get id => getOne user id
  | CreateOrUpdate data => save user data
  | Delete id => remove user id
  | GetCollection id => getPermissions user id
  | AddToCollection id data => addPermission user id data
  | RemoveFromCollection id permissionId => removePermission user id permissionId
  end.

(** The [action] each operation resolves its permission for. *)
Definition permissionAction (op : Operation) : ActivityType :=
  match op with
  | List | Get _ | GetCollection _ => READ
  | CreateOrUpdate data =>
      if truthy (default VUndefined (data !! "id")) then UPDATE else CREATE
  | Delete _ | RemoveFromCollection _ _ => DELETE
  | AddToCollection _ _ => CREATE
  end.

(** The resource each operation resolves its permission for. *)
Definition permissionResource (op : Operation) : string :=
  match op with
  | List | Get _ | CreateOrUpdate _ | Delete _ => this_resource
  | GetCollection _ | AddToCollection _ _ | RemoveFromCollection _ _ =>
      this_rolePermissionResource
  end.

Definition resolved (user : obj) (op : Operation) : AuthPermission :=
  getPermission user false (permissionAction op) (permissionResource op).

(** The fetch an operation makes before it resolves the permission. *)
Definition prefetch (op : Operation) : list StoreCall :=
  match op with
  | List => [CallFind ["permissions"]]
  | Get id | GetCollection id => [CallFindOne id ["permissions"]]
  | Delete id => [CallFindOne id []]
  | CreateOrUpdate _ | AddToCollection _ _ | RemoveFromCollection _ _ => []
  end.

End RoleDao.

(** ** Membership of a role's permission collection *)

(** The identity a relation is compared by: [String(relation.id)]. *)
Definition relationKey (relation : value) : string :=
  JsString (default VUndefined (getProp relation "id")).

(** The identities of the members of [record.permissions], in order. *)
Definition memberIds (record : value) : list string :=
  match getProp record "permissions" with
  | Some permissions => map relationKey (default [] (iterate permissions))
  | None => []
  end.

Definition memberSet (record : value) : gset string :=
  list_to_set (memberIds record).

(** A relation that is a record (its [id] can be read) and does not have the
    given id. *)
Definition notMember (permissionId : string) (relation : value) : Prop :=
  nullish relation = false /\ relationKey relation <> permissionId.

(** ** An in-memory repository *)

(** A stand-in for the ORM in the concrete runs below (the theorems hold for
    every repository).  The store is the list of its rows; a row is found,
    replaced and removed by [String(row.id)]; [save] returns the record it was
    given. *)
Definition rowIs (id : string) (row : value) : bool :=
  bool_decide (relationKey row = id).

Definition mem_findOne (id : string) (rows : list value) : value :=
  default VUndefined (head (List.filter (rowIs id) rows)).

Definition mem_save (record : value) (rows : list value) : list value * value :=
  if existsb (rowIs (relationKey record)) rows then
    (map (fun row => if rowIs (relationKey record) row then record else row) rows,
     record)
  else (rows ++ [record], record).

Definition mem_remove (record : value) (rows : list value) : list value :=
  List.filter (fun row => negb (rowIs (relationKey record) row)) rows.

#[export] Instance MemRepository : Repository (list value) := {|
  repo_find _ rows := VArr rows;
  repo_findOne id _ rows := mem_findOne id rows;
  repo_save := mem_save;
  repo_remove := mem_remove;
|}.

(** Two authorization helpers for concrete runs: one grants everything and
    hides the [secret] field, one denies everything. *)
Definition hideSecret (v : value) : value :=
  match v with
  | VObj m => VObj (delete "secret" m)
  | _ => v
  end.

Definition grantAll (user : obj) (isOwnerOrMember : bool)
    (action : ActivityType) (resource : string) : AuthPermission :=
  {| granted := true; filter := hideSecret |}.

Definition denyAll (user : obj) (isOwnerOrMember : bool)
    (action : ActivityType) (resource : string) : AuthPermission :=
  {| granted := false; filter := fun v => v |}.

(** A clock that advances by three milliseconds per reading. *)
Definition sampleClock (n : nat) : Z := (1000 + 3 * Z.of_nat n)%Z.

Definition permissionRow (i : Z) (action : string) : obj :=
  <["id" := VNum i]> (<["resource" := VStr "users"]>
    (<["action" := VStr action]> (<["attributes" := VStr "*"]> ∅))).

Definition roleRow (name : string) (permissions : list value) : value :=
  VObj (<["id" := VStr name]> (<["description" := VStr "a role"]>
    (<["permissions" := VArr permissions]> ∅))).

Definition adminUser : obj := <["id" := VNum 7]> ∅.

Definition sampleWorld (rows : list value) : World (list value) :=
  mkWorld rows [] [] 0.

Definition readAny : obj := permissionRow 1 "read:any".
Definition createAny : obj := permissionRow 2 "create:any".

(** A store holding the role [admin] with the given permissions. *)
Definition adminWorld (permissions : list value) : World (list value) :=
  sampleWorld [roleRow "admin" permissions].



(** The data of a new role that carries a field the filter hides. *)
Definition newRole : obj :=
  <["description" := VStr "auditor"]> (<["secret" := VStr "s3"]> ∅).

(** ** What the operations announce, and in which order they call *)

(** The name under which an operation emits its activity. *)
Definition activityName (op : Operation) : ActivityType :=
  match op with
  | List | Get _ | GetCollection _ => READ
  | CreateOrUpdate data =>
      if truthy (default VUndefined (data !! "id")) then UPDATE else CREATE
  | Delete _ => DELETE
  | AddToCollection _ _ => ADD
  | RemoveFromCollection _ _ => REMOVE
  end.

(** The [target] of the activity an operation emits. *)
Definition activityTarget (op : Operation) : option value :=
  match op with
  | GetCollection id | AddToCollection id _ | RemoveFromCollection id _ =>
      Some (idType (VStr id) this_resource)
  | List | Get _ | CreateOrUpdate _ | Delete _ => None
  end.

(** The calls an operation has added to those made before it. *)
Definition newCalls {Store : Type} (before after : World Store)
    : list StoreCall :=
  drop (length (calls before)) (calls after).

(** The activities an operation has added to those emitted before it. *)
Definition newActivities {Store : Type} (before after : World Store)
    : list (ActivityType * Activity) :=
  drop (length (emitted before)) (emitted after).

(** A sequence of calls that is empty, or one call followed by at most two
    calls that save or remove. *)
Definition fetchesFirst (new : list StoreCall) : bool :=
  match new with
  | [] => true
  | _ :: writes =>
      forallb (fun c => negb (isFetch c)) writes && (length writes <=? 2)%nat
  end.

(** ** The loop of [removePermission], as a partition *)

Definition hasId (permissionId : string) (relation : value) : bool :=
  bool_decide (relationKey relation = permissionId).

(** The relations without the id, in order. *)
Definition otherRelations (permissionId : string) (relations : list value)
    : list value :=
  List.filter (fun relation => negb (hasId permissionId relation)) relations.

(** The last relation with the id, or [found] when there is none. *)
Definition lastWithId (permissionId : string) (relations : list value)
    (found : value) : value :=
  fold_left
    (fun found relation => if hasId permissionId relation then relation else found)
    relations found.

(** The array that [record.permissions.push] appends to, when there is one. *)
Definition permissionsArray (record : value) : option (list value) :=
  match record with
  | VObj m =>
      match m !! "permissions" with
      | Some (VArr l) => Some l
      | _ => None
      end
  | _ => None
  end.

(** The relations that the loop of [removePermission] visits, when
    [record.permissions] can be iterated. *)
Definition relationsOf (record : value) : option (list value) :=
  match getProp record "permissions" with
  | Some permissions => iterate permissions
  | None => None
  end.

(** An authorization helper whose filter yields [null]. *)
Definition grantNothingVisible (user : obj) (isOwnerOrMember : bool)
    (action : ActivityType) (resource : string) : AuthPermission :=
  {| granted := true; filter := fun _ => VNull |}.

(** A role row read without its relations. *)
Definition bareRole (name : string) : value :=
  VObj (<["id" := VStr name]> (<["description" := VStr "a role"]> ∅)).

(** The fields of [roleRow]. *)
Definition roleFields (name : string) (permissions : list value) : obj :=
  <["id" := VStr name]> (<["description" := VStr "a role"]>
    (<["permissions" := VArr permissions]> ∅)).

(** ** Create-or-update with the handed object followed *)

(** The state in which a save leaves the value it was handed.  A primitive
    cannot be written to; an object or an array is left as the writes of the
    repository, [saveWrites], leave it. *)
Definition handedBack {Store : Type} (saveWrites : value -> Store -> value)
    (record : value) (s : Store) : value :=
  match record with
  | VObj _ | VArr _ => saveWrites record s
  | _ => record
  end.

Section InPlace.

Context {Store : Type} `{Repository Store}.
Variable clock : nat -> Z.
Variable getPermission : obj -> bool -> ActivityType -> string -> AuthPermission.

(** What the repository's [save] writes into the object it is handed. *)
Variable saveWrites : value -> Store -> value.

(** [await roleRepository.save(record)]: the value it resolves to, and
    [record] as the call leaves it. *)
Definition saveRecordInPlace (record : value) : M Store (value * value) :=
  fun w =>
    let saved := repo_save record (store w) in
    (Return (saved.2, handedBack saveWrites record (store w)),
     mkWorld saved.1 (calls w ++ [CallSave record]) (emitted w) (ticks w)).

(** [save], where [filteredData] after the call to the repository is the
    object as the repository left it. *)
Definition saveInPlace (user : obj) (data : obj) : M Store value :=
  let* started := Date_now clock in
  let newRecord := VObj data in
  let isOwnerOrMember := false in
  let action :=
    if truthy (default VUndefined (data !! "id")) then UPDATE else CREATE in
  let permission := getPermission user isOwnerOrMember action this_resource in
  if granted permission then
    let filteredData := filter permission newRecord in
    let* saved := saveRecordInPlace filteredData in
    let savedData := saved.1 in
    let filteredData := saved.2 in
    let* ended := Date_now clock in
    emit action
      {| actor := {| actor_id := userId user; actor_type := Person |};
         object := VObj (<["type" := VStr this_resource]> (ownProps savedData));
         resource := this_resource;
         target := None;
         timestamp := ended;
         took := (ended - started)%Z;
         type := action |} ;;
    (* the log line reads filteredData.id *)
    member filteredData "id" ;;
    ret filteredData
  else
    throw (UserNotAuthorizedException (userId user) action this_resource).

End InPlace.



(** ** Add-to-collection with data of any type *)

Section AnyData.

Context {Store : Type} `{Repository Store}.
Variable clock : nat -> Z.
Variable getPermission : obj -> bool -> ActivityType -> string -> AuthPermission.

(** [addPermission] for [data: any]: the log line reads [newRecord.action]
    after the save and the emit. *)
Definition addPermissionAny (user : obj) (id : string) (data : value)
    : M Store value :=
  let* started := Date_now clock in
  let newRecord := data in
  let isOwnerOrMember := false in
  let action := CREATE in
  let permission :=
    getPermission user isOwnerOrMember action this_rolePermissionResource in
  if granted permission then
    let* recordToUpdate := findOne id ["permissions"] in
    if truthy recordToUpdate then
      let* recordToUpdate := pushPermission recordToUpdate newRecord in
      let filteredData := filter permission recordToUpdate in
      saveRecord recordToUpdate ;;
      let* ended := Date_now clock in
      let* recordId := member recordToUpdate "id" in
      emit ADD
        {| actor := {| actor_id := userId user; actor_type := Person |};
           object := idType recordId "permission";
           resource := this_rolePermissionResource;
           target := Some (idType (VStr id) this_resource);
           timestamp := ended;
           took := (ended - started)%Z;
           type := ADD |} ;;
      (* the log line reads newRecord.action and recordToUpdate.id *)
      member newRecord "action" ;;
      member recordToUpdate "id" ;;
      ret filteredData
    else
      throw (RecordNotFoundException id)
  else
    throw (UserNotAuthorizedException (userId user) action
             this_rolePermissionResource).

End AnyData.


(** ** Running the operations *)

Ltac run_op :=
  cbv beta iota zeta delta
    [perform getAll getOne save remove getPermissions addPermission
     removePermission bind ret throw Date_now find findOne saveRecord
     removeRecord emit member orTypeError pushPermission assignPermissions];
  cbn [fst snd store calls emitted ticks].

Ltac split_run :=
  repeat
    (match goal with
     | |- context [if granted ?p then _ else _] => destruct (granted p) eqn:?
     | |- context [if negb (truthy ?v) then _ else _] =>
         destruct (truthy v) eqn:?; cbn [negb]
     | |- context [if truthy ?v then _ else _] => destruct (truthy v) eqn:?
     | |- context [getProp ?v ?k] => destruct (getProp v k) eqn:?
     | |- context [iterate ?v] => destruct (iterate v) eqn:?
     | |- context [scanRelations ?p ?l ?r ?u] =>
         destruct (scanRelations p l r u) as [[? ?]|] eqn:?
     | |- context [match ?v with VObj _ => _ | _ => _ end] => destruct v eqn:?
     | |- context [match ?m !! ?k with Some _ => _ | None => _ end] =>
         destruct (m !! k) eqn:?
     end;
     run_op).

(** Computes the calls and the activities added by a run whose world has
    been computed. *)
Ltac added :=
  unfold newCalls, newActivities; cbn [calls emitted];
  rewrite <- ?app_assoc; rewrite ?drop_app_length, ?drop_all; cbn [app].


(** A value that passes a truthiness test has properties to read. *)
Lemma truthy_getProp (v : value) (k : string) :
  truthy v = true -> exists x, getProp v k = Some x.
Proof. destruct v; cbn; intros Ht; try discriminate; eauto. Qed.

Section Denied.

Context {Store : Type} `{Repository Store}.
Variable clock : nat -> Z.
Variable getPermission : obj -> bool -> ActivityType -> string -> AuthPermission.

Local Abbreviation run := (perform clock getPermission).
Local Abbreviation permit := (resolved getPermission).

(** What a denied operation does, in full: it raises the authorization error,
    the repository has seen the prefetch and nothing else, the store and the
    event channel are as they were, and the clock was read once. *)
Lemma denied_run (user : obj) (op : Operation) (w : World Store) :
  granted (permit user op) = false ->
  run user op w =
    (Throw (UserNotAuthorizedException (userId user) (permissionAction op)
              (permissionResource op)),
     mkWorld (store w) (calls w ++ prefetch op) (emitted w)
       (S (ticks w))).
Proof.
  unfold resolved. intros Hdenied.
  destruct op; run_op; cbn [permissionAction permissionResource] in Hdenied;
    rewrite Hdenied; cbn [prefetch]; rewrite ?app_nil_r; reflexivity.
Qed.

(** C1.  Whatever the operation and the actor, when the permission resolved
    for it is not granted the operation raises [UserNotAuthorizedException]
    carrying the actor's id, the action and the resource name, and emits no
    activity. *)
Theorem denied_raises_authorization_error
    (user : obj) (op : Operation) (w : World Store) :
  granted (permit user op) = false ->
  (run user op w).1 =
    Throw (UserNotAuthorizedException (userId user) (permissionAction op)
             (permissionResource op))
  /\ emitted (run user op w).2 = emitted w.
Proof.
  intros Hdenied. rewrite (denied_run user op w Hdenied). split; reflexivity.
Qed.

(** C2, as amended.  A denied operation never saves or removes: the store is
    unchanged, and the only call the repository has seen is the fetch that
    list, get, delete and get-nested-collection make before they resolve the
    permission; create-or-update, add-to-collection and
    remove-from-collection make no call at all. *)
Theorem denied_only_prefetches (user : obj) (op : Operation) (w : World Store) :
  granted (permit user op) = false ->
  store (run user op w).2 = store w
  /\ calls (run user op w).2 = calls w ++ prefetch op
  /\ forallb isFetch (prefetch op) = true
  /\ (match op with
      | CreateOrUpdate _ | AddToCollection _ _ | RemoveFromCollection _ _ =>
          calls (run user op w).2 = calls w
      | _ => length (prefetch op) = 1
      end).
Proof.
  intros Hdenied. rewrite (denied_run user op w Hdenied).
  cbn [snd store calls]. repeat split; destruct op; cbn; rewrite ?app_nil_r;
    reflexivity.
Qed.

End Denied.

(** The scenario of the actor without a role listing the roles. *)
Lemma denied_raises_authorization_error_witness :
  (perform sampleClock denyAll adminUser List (sampleWorld [])).1 =
    Throw (UserNotAuthorizedException (VNum 7) READ "role")
  /\ emitted (perform sampleClock denyAll adminUser List (sampleWorld [])).2 = [].
Proof.
  apply (denied_raises_authorization_error sampleClock denyAll adminUser List
           (sampleWorld [])).
  reflexivity.
Defined.

(** C2 as stated fails: the denied list operation has called [find]. *)
Lemma denied_list_calls_find :
  granted (resolved denyAll adminUser List) = false
  /\ calls (perform sampleClock denyAll adminUser List (sampleWorld [])).2 =
       [CallFind ["permissions"]]
  /\ calls (perform sampleClock denyAll adminUser List (sampleWorld [])).2 <>
       calls (sampleWorld []).
Proof. repeat split. discriminate. Qed.

Lemma denied_only_prefetches_witness :
  store (perform sampleClock denyAll adminUser (Delete "admin")
           (sampleWorld [roleRow "admin" []])).2 = [roleRow "admin" []]
  /\ calls (perform sampleClock denyAll adminUser (Delete "admin")
              (sampleWorld [roleRow "admin" []])).2 = [CallFindOne "admin" []].
Proof.
  destruct (denied_only_prefetches sampleClock denyAll adminUser
              (Delete "admin") (sampleWorld [roleRow "admin" []]))
    as (Hstore & Hcalls & _); [reflexivity|].
  split; [exact Hstore | exact Hcalls].
Defined.

Section Audit.

Context {Store : Type} `{Repository Store}.
Variable clock : nat -> Z.
Variable getPermission : obj -> bool -> ActivityType -> string -> AuthPermission.

Local Abbreviation run := (perform clock getPermission).

(** C3.  An operation that returns has emitted exactly one activity, also
    when it saved more than once; an operation that raised the authorization
    error or a not-found error has emitted none. *)
Theorem one_activity_per_success (user : obj) (op : Operation) (w : World Store) :
  match (run user op w).1 with
  | Return _ => exists a, emitted (run user op w).2 = emitted w ++ [a]
  | Throw (UserNotAuthorizedException _ _ _)
  | Throw (RecordNotFoundException _)
  | Throw (RecordsNotFoundException _) => emitted (run user op w).2 = emitted w
  | Throw TypeError => True
  end.
Proof.
  destruct op; run_op; split_run; eauto.
Qed.

(** C8.  The activities an operation emits are stamped from the clock: [took]
    is [timestamp] minus the reading taken when the operation started, and
    with a clock that does not run backwards [took] is not negative and
    [timestamp] is not before the start. *)
Theorem activity_timing (user : obj) (op : Operation) (w : World Store) :
  (forall i j : nat, (i <= j)%nat -> (clock i <= clock j)%Z) ->
  exists new,
    emitted (run user op w).2 = emitted w ++ new
    /\ Forall (fun e : ActivityType * Activity =>
                 took e.2 = (timestamp e.2 - clock (ticks w))%Z
                 /\ (0 <= took e.2)%Z
                 /\ (clock (ticks w) <= timestamp e.2)%Z) new.
Proof.
  intros Hmono.
  assert (Hstep : (clock (ticks w) <= clock (S (ticks w)))%Z)
    by (apply Hmono; lia).
  assert (Hnone : emitted w = emitted w ++ []) by (rewrite app_nil_r; reflexivity).
  destruct op; run_op; split_run;
    first
      [ exists []; split; [exact Hnone | constructor]
      | eexists [_]; split; [reflexivity|];
        repeat constructor; cbn [snd took timestamp]; lia ].
Qed.

End Audit.

Section CreateOrUpdate.

Context {Store : Type} `{Repository Store}.
Variable clock : nat -> Z.
Variable getPermission : obj -> bool -> ActivityType -> string -> AuthPermission.

Local Abbreviation save := (save clock getPermission).
Local Abbreviation permit := (resolved getPermission).

(** C4.  A granted create-or-update makes one call on the repository: a save
    of the resolved filter applied to the caller's data.  So a field that the
    filter leaves in no value is in nothing that the call persists. *)
Theorem save_persists_filtered_input (user : obj) (data : obj) (w : World Store) :
  granted (permit user (CreateOrUpdate data)) = true ->
  calls (save user data w).2 =
    calls w ++ [CallSave (filter (permit user (CreateOrUpdate data)) (VObj data))]
  /\ store (save user data w).2 =
       (repo_save (filter (permit user (CreateOrUpdate data)) (VObj data))
          (store w)).1
  /\ forall k : string,
       (forall x, ownProps (filter (permit user (CreateOrUpdate data)) x) !! k
                  = None) ->
       forall record,
         In (CallSave record) (drop (length (calls w)) (calls (save user data w).2)) ->
         ownProps record !! k = None.
Proof.
  unfold resolved. cbn [permissionAction permissionResource]. intros Hgranted.
  assert (Hcalls :
    calls (save user data w).2 =
      calls w ++ [CallSave (filter (getPermission user false
        (if truthy (default VUndefined (data !! "id")) then UPDATE else CREATE)
        this_resource) (VObj data))]).
  { run_op. rewrite Hgranted. run_op. split_run; reflexivity. }
  split; [exact Hcalls|]. split.
  - run_op. rewrite Hgranted. run_op. split_run; reflexivity.
  - intros k Hmasked record. rewrite Hcalls, drop_app_length.
    intros [Heq|[]]. injection Heq as <-. apply Hmasked.
Qed.

End CreateOrUpdate.

Section Listing.

Context {Store : Type} `{Repository Store}.
Variable clock : nat -> Z.
Variable getPermission : obj -> bool -> ActivityType -> string -> AuthPermission.

Local Abbreviation getAll := (getAll clock getPermission).

(** C7.  A granted list over an empty collection succeeds with [length] and
    [total] zero; the plural not-found error is raised only for a falsy fetch
    result, which no array is. *)
Theorem list_empty_is_success (user : obj) (w : World Store) :
  granted (getPermission user false READ this_resource) = true ->
  (repo_find ["permissions"] (store w) = VArr [] ->
   (getAll user w).1 =
     Return (VObj (<["data" := filter (getPermission user false READ this_resource)
                                 (VArr [])]>
                   (<["length" := VNum 0]> (<["total" := VNum 0]> ∅)))))
  /\ (forall name, (getAll user w).1 = Throw (RecordsNotFoundException name) ->
        truthy (repo_find ["permissions"] (store w)) = false
        /\ forall rows, repo_find ["permissions"] (store w) <> VArr rows)
  /\ (truthy (repo_find ["permissions"] (store w)) = false ->
      (getAll user w).1 = Throw (RecordsNotFoundException this_resource)).
Proof.
  intros Hgranted. split; [|split].
  3: { intros Hfalsy. run_op. rewrite Hgranted, Hfalsy. reflexivity. }
  - intros Hempty. run_op. rewrite Hgranted, Hempty. reflexivity.
  - intros name. run_op. rewrite Hgranted.
    destruct (truthy (repo_find ["permissions"] (store w))) eqn:Hrows;
      cbn [negb]; run_op.
    + destruct (truthy_getProp _ "length" Hrows) as [x ->]. discriminate.
    + intros _. split; [reflexivity|]. intros rows Heq.
      rewrite Heq in Hrows. discriminate.
Qed.

End Listing.

(** ** The permission collection *)

(** The loop keeps the relations that do not have the id, in order. *)
Lemma scanRelations_non_members
    (permissionId : string) (relations : list value)
    (removedItem : value) (updatedPermissions : list value) :
  Forall (notMember permissionId) relations ->
  scanRelations permissionId relations removedItem updatedPermissions =
    Some (removedItem, updatedPermissions ++ relations).
Proof.
  intros Hnone. revert removedItem updatedPermissions.
  induction Hnone as [|relation rest [Hobj Hkey] _ IH]; intros removedItem updated.
  - cbn. rewrite app_nil_r. reflexivity.
  - cbn [scanRelations]. unfold relationKey in Hkey.
    destruct (getProp relation "id") as [relationId|] eqn:Hid.
    + cbn in Hkey. destruct (decide (JsString relationId = permissionId)) as [|_].
      * contradiction.
      * rewrite IH, <- app_assoc. reflexivity.
    + destruct relation; cbn in Hid, Hobj; discriminate.
Qed.

(** The loop over a concatenation continues from where the first part ended. *)
Lemma scanRelations_app
    (permissionId : string) (front back : list value)
    (removedItem : value) (updatedPermissions : list value) :
  scanRelations permissionId (front ++ back) removedItem updatedPermissions =
    match scanRelations permissionId front removedItem updatedPermissions with
    | Some (removedItem', updatedPermissions') =>
        scanRelations permissionId back removedItem' updatedPermissions'
    | None => None
    end.
Proof.
  revert removedItem updatedPermissions.
  induction front as [|relation front IH]; intros removedItem updated;
    [reflexivity|].
  cbn [app scanRelations]. destruct (getProp relation "id"); [|reflexivity].
  destruct (decide _); apply IH.
Qed.

Lemma getProp_field (m : obj) (k : string) (v : value) :
  m !! k = Some v -> getProp (VObj m) k = Some v.
Proof. intros Hk. cbn. rewrite Hk. reflexivity. Qed.

Lemma getProp_assigned (m : obj) (k : string) (v : value) :
  getProp (VObj (<[k := v]> m)) k = Some v.
Proof. apply getProp_field, lookup_insert_eq. Qed.

Lemma memberIds_permissions (m : obj) (relations : list value) :
  m !! "permissions" = Some (VArr relations) ->
  memberIds (VObj m) = map relationKey relations.
Proof. intros Hp. unfold memberIds. cbn. rewrite Hp. reflexivity. Qed.

Section Collection.

Context {Store : Type} `{Repository Store}.
Variable clock : nat -> Z.
Variable getPermission : obj -> bool -> ActivityType -> string -> AuthPermission.

Local Abbreviation addPermission := (addPermission clock getPermission).
Local Abbreviation removePermission := (removePermission clock getPermission).
Local Abbreviation permit := (resolved getPermission).

(** C5.  A granted remove-from-collection of an id that no member has returns
    normally, saves the fetched record once and as it was fetched, and emits
    one activity. *)
Theorem remove_non_member_is_noop
    (user : obj) (id permissionId : string) (w : World Store)
    (permissions : value) (relations : list value) :
  granted (permit user (RemoveFromCollection id permissionId)) = true ->
  truthy (repo_findOne id ["permissions"] (store w)) = true ->
  getProp (repo_findOne id ["permissions"] (store w)) "permissions"
    = Some permissions ->
  iterate permissions = Some relations ->
  Forall (notMember permissionId) relations ->
  (removePermission user id permissionId w).1 =
    Return (filter (permit user (RemoveFromCollection id permissionId))
              (repo_findOne id ["permissions"] (store w)))
  /\ calls (removePermission user id permissionId w).2 =
       calls w ++ [CallFindOne id ["permissions"];
                   CallSave (repo_findOne id ["permissions"] (store w))]
  /\ store (removePermission user id permissionId w).2 =
       (repo_save (repo_findOne id ["permissions"] (store w)) (store w)).1
  /\ exists a,
       emitted (removePermission user id permissionId w).2 =
         emitted w ++ [(REMOVE, a)].
Proof.
  unfold resolved. cbn [permissionAction permissionResource].
  intros Hgranted Hfound Hpermissions Hrelations Hnone.
  run_op. rewrite Hgranted. run_op. rewrite Hfound, Hpermissions. run_op.
  rewrite Hrelations. run_op.
  rewrite (scanRelations_non_members _ _ _ _ Hnone). run_op.
  cbn [truthy]. run_op. rewrite <- app_assoc.
  repeat split. eexists. reflexivity.
Qed.

(** What a granted add-to-collection does to a role that is found with its
    permissions: the item is appended and the record saved once. *)
Lemma addPermission_appends
    (user : obj) (id : string) (data : obj) (w : World Store)
    (m : obj) (relations : list value) :
  granted (permit user (AddToCollection id data)) = true ->
  repo_findOne id ["permissions"] (store w) = VObj m ->
  m !! "permissions" = Some (VArr relations) ->
  (addPermission user id data w).1 =
    Return (filter (permit user (AddToCollection id data))
              (VObj (<["permissions" := VArr (relations ++ [VObj data])]> m)))
  /\ calls (addPermission user id data w).2 =
       calls w ++ [CallFindOne id ["permissions"];
                   CallSave (VObj (<["permissions" :=
                                       VArr (relations ++ [VObj data])]> m))]
  /\ store (addPermission user id data w).2 =
       (repo_save (VObj (<["permissions" := VArr (relations ++ [VObj data])]> m))
          (store w)).1.
Proof.
  unfold resolved. cbn [permissionAction permissionResource].
  intros Hgranted Hfound Hpermissions.
  run_op. rewrite Hgranted. run_op. rewrite Hfound. cbn [truthy].
  rewrite Hpermissions. run_op. rewrite <- app_assoc. repeat split.
Qed.

(** C6, as amended.  When no member of the role has the item's id, a granted
    add-to-collection of the item followed by a granted remove-from-collection
    of its id saves, twice, exactly the record that the add had fetched: the
    membership is what it was before the add. *)
Theorem add_then_remove_restores
    (user : obj) (id : string) (data : obj) (w : World Store)
    (m : obj) (relations : list value) :
  let permissionId := relationKey (VObj data) in
  let w1 := (addPermission user id data w).2 in
  granted (permit user (AddToCollection id data)) = true ->
  granted (permit user (RemoveFromCollection id permissionId)) = true ->
  repo_findOne id ["permissions"] (store w) = VObj m ->
  m !! "permissions" = Some (VArr relations) ->
  Forall (notMember permissionId) relations ->
  repo_findOne id ["permissions"] (store w1) =
    VObj (<["permissions" := VArr (relations ++ [VObj data])]> m) ->
  (removePermission user id permissionId w1).1 =
    Return (filter (permit user (RemoveFromCollection id permissionId)) (VObj m))
  /\ calls (removePermission user id permissionId w1).2 =
       calls w1 ++ [CallFindOne id ["permissions"]; CallSave (VObj m);
                    CallSave (VObj m)]
  /\ forall record,
       In (CallSave record)
          (drop (length (calls w1))
             (calls (removePermission user id permissionId w1).2)) ->
       memberSet record =
         memberSet (repo_findOne id ["permissions"] (store w)).
Proof.
  intros permissionId w1 Hadd Hremove Hfound Hpermissions Hnone Hsaved.
  assert (Hcalls :
    calls (removePermission user id permissionId w1).2 =
      calls w1 ++ [CallFindOne id ["permissions"]; CallSave (VObj m);
                   CallSave (VObj m)]);
    [|split; [|split; [exact Hcalls|]]].
  3: { intros record. rewrite Hcalls, drop_app_length, Hfound.
       intros [Hc|[Hc|[Hc|[]]]]; try discriminate;
         injection Hc as <-; reflexivity. }
  all: unfold resolved in Hremove;
    cbn [permissionAction permissionResource] in Hremove;
    unfold resolved; cbn [permissionAction permissionResource];
    run_op; rewrite Hremove; run_op; fold w1; rewrite Hsaved; cbn [truthy];
    rewrite getProp_assigned; run_op; cbn [iterate]; run_op;
    rewrite scanRelations_app, (scanRelations_non_members _ _ _ _ Hnone);
    cbn [scanRelations app];
    change (getProp (VObj data) "id")
      with (Some (default VUndefined (data !! "id")));
    cbv beta iota;
    (case_decide as Hne; [|exfalso; apply Hne; reflexivity]);
    run_op; cbn [truthy]; run_op;
    rewrite insert_insert_eq, (insert_id m "permissions" _ Hpermissions);
    rewrite <- ?app_assoc; reflexivity.
Qed.

End Collection.

(** ** Concrete runs *)

Lemma one_save_of_the_filtered_role :
  calls (save sampleClock grantAll adminUser newRole (sampleWorld [])).2 =
    [] ++ [CallSave (VObj (<["description" := VStr "auditor"]> ∅))]
  /\ ownProps (VObj newRole) !! "secret" = Some (VStr "s3").
Proof.
  split; [|reflexivity].
  apply (save_persists_filtered_input sampleClock grantAll adminUser newRole
           (sampleWorld [])).
  reflexivity.
Defined.

Lemma empty_list_is_returned :
  (getAll sampleClock grantAll adminUser (sampleWorld [])).1 =
    Return (VObj (<["data" := VArr []]>
                  (<["length" := VNum 0]> (<["total" := VNum 0]> ∅)))).
Proof.
  refine (proj1 (list_empty_is_success sampleClock grantAll adminUser
                   (sampleWorld []) _) _);
    reflexivity.
Defined.

Lemma sampleClock_monotone (i j : nat) :
  (i <= j)%nat -> (sampleClock i <= sampleClock j)%Z.
Proof. unfold sampleClock. lia. Qed.

Lemma get_is_timed :
  exists new,
    emitted (perform sampleClock grantAll adminUser (Get "admin")
               (adminWorld [])).2 = [] ++ new
    /\ Forall (fun e : ActivityType * Activity =>
                 took e.2 = (timestamp e.2 - 1000)%Z
                 /\ (0 <= took e.2)%Z /\ (1000 <= timestamp e.2)%Z) new.
Proof.
  apply (activity_timing sampleClock grantAll adminUser (Get "admin")
           (adminWorld []) sampleClock_monotone).
Defined.

Lemma removing_an_absent_id_saves_once :
  calls (removePermission sampleClock grantAll adminUser "admin" "9"
           (adminWorld [VObj readAny])).2 =
    [] ++ [CallFindOne "admin" ["permissions"];
           CallSave (roleRow "admin" [VObj readAny])].
Proof.
  refine (proj1 (proj2 (remove_non_member_is_noop sampleClock grantAll
            adminUser "admin" "9" (adminWorld [VObj readAny])
            (VArr [VObj readAny]) [VObj readAny] _ _ _ _ _)));
    try reflexivity.
  repeat constructor. intros Hkey. vm_compute in Hkey. discriminate.
Defined.

Lemma add_then_remove_new_permission :
  calls (removePermission sampleClock grantAll adminUser "admin" "2"
           (addPermission sampleClock grantAll adminUser "admin" createAny
              (adminWorld [VObj readAny])).2).2 =
    calls (addPermission sampleClock grantAll adminUser "admin" createAny
             (adminWorld [VObj readAny])).2
    ++ [CallFindOne "admin" ["permissions"];
        CallSave (roleRow "admin" [VObj readAny]);
        CallSave (roleRow "admin" [VObj readAny])].
Proof.
  refine (proj1 (proj2 (add_then_remove_restores sampleClock grantAll
            adminUser "admin" createAny (adminWorld [VObj readAny])
            (<["id" := VStr "admin"]> (<["description" := VStr "a role"]>
               (<["permissions" := VArr [VObj readAny]]> ∅)))
            [VObj readAny] _ _ _ _ _ _)));
    try reflexivity.
  repeat constructor. intros Hkey. vm_compute in Hkey. discriminate.
Defined.

(** C6 as stated fails: the item's id was a member before the add, and is
    not one after the remove. *)
Lemma add_then_remove_drops_existing_member :
  let w := adminWorld [VObj readAny] in
  let added := addPermission sampleClock grantAll adminUser "admin" readAny w in
  let removed :=
    removePermission sampleClock grantAll adminUser "admin" "1" added.2 in
  relationKey (VObj readAny) = "1"
  /\ (exists v, added.1 = Return v)
  /\ (exists v, removed.1 = Return v)
  /\ memberIds (repo_findOne "admin" ["permissions"] (store w)) = ["1"]
  /\ memberIds (repo_findOne "admin" ["permissions"] (store removed.2)) = []
  /\ memberSet (repo_findOne "admin" ["permissions"] (store removed.2)) <>
       memberSet (repo_findOne "admin" ["permissions"] (store w)).
Proof.
  cbv zeta. split; [reflexivity|]. split; [eexists; reflexivity|].
  split; [eexists; reflexivity|]. split; [reflexivity|].
  split; [reflexivity|].
  intros Heq.
  apply (f_equal (fun members : gset string => bool_decide ("1" ∈ members)))
    in Heq.
  vm_compute in Heq. discriminate.
Qed.

(** A granted add-to-collection does not look for the item among the
    members: the identities of the saved record are those of the fetched
    record followed by the item's. *)
Lemma addPermission_member_ids {Store : Type} `{Repository Store}
    (clock : nat -> Z)
    (getPermission : obj -> bool -> ActivityType -> string -> AuthPermission)
    (user : obj) (id : string) (data : obj) (w : World Store)
    (m : obj) (relations : list value) :
  granted (resolved getPermission user (AddToCollection id data)) = true ->
  repo_findOne id ["permissions"] (store w) = VObj m ->
  m !! "permissions" = Some (VArr relations) ->
  exists saved,
    calls (addPermission clock getPermission user id data w).2 =
      calls w ++ [CallFindOne id ["permissions"]; CallSave saved]
    /\ memberIds saved = memberIds (VObj m) ++ [relationKey (VObj data)].
Proof.
  intros Hgranted Hfound Hpermissions.
  destruct (addPermission_appends clock getPermission user id data w m
              relations Hgranted Hfound Hpermissions) as (_ & Hcalls & _).
  eexists. split; [exact Hcalls|].
  rewrite (memberIds_permissions _ relations Hpermissions).
  rewrite (memberIds_permissions _ (relations ++ [VObj data]))
    by apply lookup_insert_eq.
  rewrite map_app. reflexivity.
Qed.

(** C9 at the failing input: adding a permission that the role already has
    saves, and returns, a collection with two members of that identity. *)
Example add_existing_member_duplicates :
  let added :=
    addPermission sampleClock grantAll adminUser "admin" readAny
      (adminWorld [VObj readAny]) in
  memberIds (repo_findOne "admin" ["permissions"]
               (store (adminWorld [VObj readAny]))) = ["1"]
  /\ calls added.2 =
       [CallFindOne "admin" ["permissions"];
        CallSave (roleRow "admin" [VObj readAny; VObj readAny])]
  /\ added.1 = Return (roleRow "admin" [VObj readAny; VObj readAny])
  /\ memberIds (roleRow "admin" [VObj readAny; VObj readAny]) = ["1"; "1"]
  /\ ~ NoDup (memberIds (roleRow "admin" [VObj readAny; VObj readAny])).
Proof.
  cbv zeta. repeat split.
  intros Hunique. vm_compute in Hunique.
  apply NoDup_cons_1_1 in Hunique. apply Hunique. left.
Qed.

(** The double save of C3: removing a member saves twice and emits once. *)
Example removing_a_member_saves_twice_emits_once :
  let removed :=
    removePermission sampleClock grantAll adminUser "admin" "1"
      (adminWorld [VObj readAny; VObj createAny]) in
  List.filter isSave (calls removed.2) =
    [CallSave (roleRow "admin" [VObj createAny]);
     CallSave (roleRow "admin" [VObj createAny])]
  /\ length (emitted removed.2) = 1%nat
  /\ removed.1 = Return (roleRow "admin" [VObj createAny]).
Proof. cbv zeta. repeat split. Qed.

(** ** Effects of every operation *)

Section Effects.

Context {Store : Type} `{Repository Store}.
Variable clock : nat -> Z.
Variable getPermission : obj -> bool -> ActivityType -> string -> AuthPermission.

Local Abbreviation run := (perform clock getPermission).

(** X1.  List, get and get-nested-collection read only: whatever the grant
    and whatever the fetch returns, the store is unchanged and the one call
    made is the fetch. *)
Theorem reads_never_write (user : obj) (op : Operation) (w : World Store) :
  match op with
  | List | Get _ | GetCollection _ =>
      store (run user op w).2 = store w
      /\ newCalls w (run user op w).2 = prefetch op
  | _ => True
  end.
Proof.
  destruct op; try exact I; run_op; split_run; added; split; reflexivity.
Qed.

(** X2.  Every operation calls the repository in the same order: at most one
    call comes first, and what follows it, at most two calls, saves or
    removes; no operation fetches after it has written. *)
Theorem calls_fetch_first (user : obj) (op : Operation) (w : World Store) :
  fetchesFirst (newCalls w (run user op w).2) = true.
Proof.
  destruct op; run_op; split_run; added; reflexivity.
Qed.

(** X3.  An activity that an operation emits is emitted under the name that
    is its [type]; it names the acting user as a [Person], the resource that
    the permission was resolved for, and the role as target exactly for the
    collection operations.  Add-to-collection and remove-from-collection
    announce [ADD] and [REMOVE] although they resolve [CREATE] and [DELETE]. *)
Theorem activity_describes_operation
    (user : obj) (op : Operation) (w : World Store) :
  Forall (fun e : ActivityType * Activity =>
            e.1 = activityName op
            /\ type e.2 = activityName op
            /\ actor e.2 = {| actor_id := userId user; actor_type := Person |}
            /\ resource e.2 = permissionResource op
            /\ target e.2 = activityTarget op)
    (newActivities w (run user op w).2).
Proof.
  destruct op; run_op; split_run; added; repeat constructor.
  all: cbn [activityName fst snd type];
    match goal with Hid : truthy _ = _ |- _ => rewrite Hid end; reflexivity.
Qed.

End Effects.

(** ** Outcomes of the single operations *)

Section Outcomes.

Context {Store : Type} `{Repository Store}.
Variable clock : nat -> Z.
Variable getPermission : obj -> bool -> ActivityType -> string -> AuthPermission.

Local Abbreviation run := (perform clock getPermission).
Local Abbreviation permit := (resolved getPermission).

(** X5.  A granted operation on a role that the repository does not find
    (the fetch result is falsy) throws [RecordNotFoundException] carrying the
    id it was called with; it has made the one fetch and read the clock once,
    and changed nothing else.  Delete fetches without relations, the others
    with the permissions. *)
Theorem missing_record_is_not_found
    (user : obj) (op : Operation) (w : World Store) :
  granted (permit user op) = true ->
  match op with
  | Get id | GetCollection id | AddToCollection id _
  | RemoveFromCollection id _ =>
      truthy (repo_findOne id ["permissions"] (store w)) = false ->
      run user op w =
        (Throw (RecordNotFoundException id),
         mkWorld (store w) (calls w ++ [CallFindOne id ["permissions"]])
           (emitted w) (S (ticks w)))
  | Delete id =>
      truthy (repo_findOne id [] (store w)) = false ->
      run user op w =
        (Throw (RecordNotFoundException id),
         mkWorld (store w) (calls w ++ [CallFindOne id []]) (emitted w)
           (S (ticks w)))
  | List | CreateOrUpdate _ => True
  end.
Proof.
  unfold resolved.
  destruct op; cbn [permissionAction permissionResource]; intros Hgranted;
    try exact I; intros Hmissing; run_op; rewrite Hgranted; run_op;
    rewrite Hmissing; reflexivity.
Qed.

(** X6.  A granted delete of a role that is found hands the fetched record
    to the repository's [remove], returns [true], and emits one [DELETE]
    activity whose object carries the id the operation was called with. *)
Theorem delete_removes_fetched_record
    (user : obj) (id : string) (w : World Store) :
  granted (permit user (Delete id)) = true ->
  truthy (repo_findOne id [] (store w)) = true ->
  (run user (Delete id) w).1 = Return (VBool true)
  /\ newCalls w (run user (Delete id) w).2 =
       [CallFindOne id []; CallRemove (repo_findOne id [] (store w))]
  /\ store (run user (Delete id) w).2 =
       repo_remove (repo_findOne id [] (store w)) (store w)
  /\ exists a,
       newActivities w (run user (Delete id) w).2 = [(DELETE, a)]
       /\ object a = idType (VStr id) "role".
Proof.
  unfold resolved. cbn [permissionAction permissionResource].
  intros Hgranted Hfound. run_op. rewrite Hgranted. run_op. rewrite Hfound.
  run_op. added. repeat split. eexists. split; reflexivity.
Qed.

(** X7.  A granted list over the rows that the repository returns yields the
    filter of the rows as [data], and as [length] and [total] the number of
    rows fetched, which is counted before the filter is applied; the store is
    unchanged and one [READ] activity without object is emitted. *)
Theorem list_counts_fetched_rows
    (user : obj) (w : World Store) (rows : list value) :
  granted (permit user List) = true ->
  repo_find ["permissions"] (store w) = VArr rows ->
  (run user List w).1 =
    Return (VObj (<["data" := filter (permit user List) (VArr rows)]>
                  (<["length" := VNum (Z.of_nat (length rows))]>
                     (<["total" := VNum (Z.of_nat (length rows))]> ∅))))
  /\ store (run user List w).2 = store w
  /\ exists a,
       newActivities w (run user List w).2 = [(READ, a)]
       /\ object a = VNull.
Proof.
  unfold resolved. cbn [permissionAction permissionResource].
  intros Hgranted Hrows. run_op. rewrite Hgranted, Hrows. cbn [truthy negb].
  run_op. cbn [getProp]. run_op. added. repeat split.
  eexists. split; reflexivity.
Qed.

(** X8.  A granted get of a role that is found returns the filter of the
    record, while the emitted [READ] activity identifies the record by the
    [id] of the record as fetched, whatever the filter leaves of it. *)
Theorem get_returns_filtered_record
    (user : obj) (id : string) (w : World Store) :
  granted (permit user (Get id)) = true ->
  truthy (repo_findOne id ["permissions"] (store w)) = true ->
  (run user (Get id) w).1 =
    Return (filter (permit user (Get id))
              (repo_findOne id ["permissions"] (store w)))
  /\ exists recordId a,
       getProp (repo_findOne id ["permissions"] (store w)) "id" = Some recordId
       /\ newActivities w (run user (Get id) w).2 = [(READ, a)]
       /\ object a = idType recordId this_resource.
Proof.
  unfold resolved. cbn [permissionAction permissionResource].
  intros Hgranted Hfound.
  destruct (truthy_getProp _ "id" Hfound) as [recordId Hid].
  run_op. rewrite Hgranted. run_op. rewrite Hfound. cbn [negb]. run_op.
  rewrite Hid. run_op. added. split; [reflexivity|].
  exists recordId. eexists. repeat split.
Qed.

(** X9.  A granted get-nested-collection of a role that is found returns the
    filter applied to the role's [permissions] property (not to the role), and
    emits one [READ] activity without object. *)
Theorem collection_is_filtered_alone
    (user : obj) (id : string) (w : World Store) :
  granted (permit user (GetCollection id)) = true ->
  truthy (repo_findOne id ["permissions"] (store w)) = true ->
  exists permissions a,
    getProp (repo_findOne id ["permissions"] (store w)) "permissions"
      = Some permissions
    /\ (run user (GetCollection id) w).1 =
         Return (filter (permit user (GetCollection id)) permissions)
    /\ newActivities w (run user (GetCollection id) w).2 = [(READ, a)]
    /\ object a = VNull.
Proof.
  unfold resolved. cbn [permissionAction permissionResource].
  intros Hgranted Hfound.
  destruct (truthy_getProp _ "permissions" Hfound) as [permissions Hp].
  exists permissions. eexists.
  run_op. rewrite Hgranted. run_op. rewrite Hfound. cbn [negb]. run_op.
  rewrite Hp. run_op. added. repeat split.
Qed.

End Outcomes.

(** ** The loop of [removePermission] *)

Lemma relationKey_read (relation relationId : value) :
  getProp relation "id" = Some relationId ->
  relationKey relation = JsString relationId.
Proof. unfold relationKey. intros ->. reflexivity. Qed.

Lemma getProp_nullish (relation : value) (k : string) :
  getProp relation k = None <-> nullish relation = true.
Proof. destruct relation; cbn; split; congruence. Qed.

(** The loop fails on a relation that is [null] or [undefined]; otherwise it
    ends with the last relation with the id and the others in order. *)
Lemma scanRelations_fold
    (permissionId : string) (relations : list value)
    (removedItem : value) (updatedPermissions : list value) :
  scanRelations permissionId relations removedItem updatedPermissions =
    if existsb nullish relations then None
    else Some (lastWithId permissionId relations removedItem,
               updatedPermissions ++ otherRelations permissionId relations).
Proof.
  revert removedItem updatedPermissions.
  induction relations as [|relation rest IH]; intros removedItem updated.
  - cbn. rewrite app_nil_r. reflexivity.
  - cbn [scanRelations existsb otherRelations List.filter lastWithId fold_left].
    destruct (getProp relation "id") as [relationId|] eqn:Hid.
    + assert (Hobj : nullish relation = false).
      { destruct (nullish relation) eqn:Hn; [|reflexivity].
        apply getProp_nullish with (k := "id") in Hn. congruence. }
      rewrite Hobj. cbn [orb]. unfold hasId.
      rewrite (relationKey_read _ _ Hid).
      case_decide as Hkey; rewrite IH.
      * rewrite (bool_decide_eq_true_2 _ Hkey). reflexivity.
      * rewrite (bool_decide_eq_false_2 _ Hkey). cbn [negb].
        rewrite <- app_assoc. reflexivity.
    + apply getProp_nullish in Hid. rewrite Hid. reflexivity.
Qed.

Lemma otherRelations_notMember (permissionId : string) (relations : list value) :
  existsb nullish relations = false ->
  Forall (notMember permissionId) (otherRelations permissionId relations).
Proof.
  induction relations as [|relation rest IH]; cbn [existsb otherRelations List.filter];
    [constructor|].
  intros Hobjects. apply orb_false_iff in Hobjects as [Hobj Hrest].
  destruct (hasId permissionId relation) eqn:Hhas; cbn [negb].
  - apply IH, Hrest.
  - constructor; [|apply IH, Hrest]. split; [exact Hobj|].
    unfold hasId in Hhas. apply bool_decide_eq_false_1 in Hhas. exact Hhas.
Qed.

Lemma lastWithId_truthy (permissionId : string) (relations : list value)
    (found : value) :
  Forall (fun relation => truthy relation = true) relations ->
  truthy found = true \/ In permissionId (map relationKey relations) ->
  truthy (lastWithId permissionId relations found) = true.
Proof.
  intros Hobjects. revert found.
  induction Hobjects as [|relation rest Hobj _ IH]; intros found Hsome.
  - destruct Hsome as [Hfound|[]]. exact Hfound.
  - cbn [lastWithId fold_left]. apply IH. unfold hasId.
    case_bool_decide as Hkey; [left; exact Hobj|].
    destruct Hsome as [Hfound|[Hhere|Hlater]];
      [left; exact Hfound | contradiction | right; exact Hlater].
Qed.

(** The item the loop reports is the one it started with or a relation with
    the id. *)
Lemma lastWithId_cases (permissionId : string) (relations : list value)
    (found : value) :
  lastWithId permissionId relations found = found
  \/ (In (lastWithId permissionId relations found) relations
      /\ relationKey (lastWithId permissionId relations found) = permissionId).
Proof.
  induction relations as [|relation front IH] using rev_ind;
    [left; reflexivity|].
  unfold lastWithId. rewrite fold_left_app. cbn [fold_left].
  fold (lastWithId permissionId front found).
  destruct (hasId permissionId relation) eqn:Hhas.
  - right. split; [apply in_or_app; right; left; reflexivity|].
    unfold hasId in Hhas. apply bool_decide_eq_true_1 in Hhas. exact Hhas.
  - destruct IH as [Hnone|[Hin Hkey]]; [left; exact Hnone|].
    right. split; [apply in_or_app; left; exact Hin | exact Hkey].
Qed.

Lemma truthy_not_nullish (relations : list value) :
  Forall (fun relation => truthy relation = true) relations ->
  existsb nullish relations = false.
Proof.
  induction 1 as [|relation rest Hobj _ IH]; [reflexivity|].
  cbn [existsb]. rewrite IH. destruct relation; cbn in *; congruence.
Qed.

(** X10.  The loop of remove-from-collection partitions the relations: when
    it ends, the relations it keeps are exactly those whose [String(id)]
    differs from the id, in their original order, and the item it reports as
    removed is [undefined] or one of the relations with the id.  It fails
    exactly when a relation is [null] or [undefined]. *)
Theorem scanRelations_partitions
    (permissionId : string) (relations : list value) :
  match scanRelations permissionId relations VUndefined [] with
  | Some (removedItem, updatedPermissions) =>
      existsb nullish relations = false
      /\ updatedPermissions = otherRelations permissionId relations
      /\ Forall (notMember permissionId) updatedPermissions
      /\ (removedItem = VUndefined
          \/ (In removedItem relations
              /\ relationKey removedItem = permissionId))
  | None => existsb nullish relations = true
  end.
Proof.
  rewrite scanRelations_fold.
  destruct (existsb nullish relations) eqn:Hobjects; [reflexivity|].
  split; [reflexivity|]. split; [reflexivity|].
  split; [apply otherRelations_notMember, Hobjects|].
  apply lastWithId_cases.
Qed.

Lemma otherRelations_all (permissionId : string) (relations : list value) :
  ~ In permissionId (map relationKey relations) ->
  otherRelations permissionId relations = relations.
Proof.
  induction relations as [|relation rest IH]; [reflexivity|].
  cbn [map otherRelations List.filter]. intros Hnone. unfold hasId.
  case_bool_decide as Hkey; cbn [negb].
  - exfalso. apply Hnone. left. exact Hkey.
  - f_equal. apply IH. intros Hin. apply Hnone. right. exact Hin.
Qed.

Lemma otherRelations_keys (permissionId : string) (relations : list value) :
  map relationKey (otherRelations permissionId relations) =
    List.filter (fun key => negb (bool_decide (key = permissionId)))
      (map relationKey relations).
Proof.
  induction relations as [|relation rest IH]; [reflexivity|].
  cbn [map otherRelations List.filter]. unfold hasId.
  case_bool_decide; cbn [negb map]; rewrite <- IH; reflexivity.
Qed.

Lemma otherRelations_truthy (permissionId : string) (relations : list value) :
  Forall (fun relation => truthy relation = true) relations ->
  Forall (fun relation => truthy relation = true)
    (otherRelations permissionId relations).
Proof.
  induction 1 as [|relation rest Hobj _ IH]; [constructor|].
  cbn [otherRelations List.filter].
  destruct (negb (hasId permissionId relation)); [constructor|]; assumption.
Qed.

(** ** Outcomes of the collection operations *)

Section CollectionOutcomes.

Context {Store : Type} `{Repository Store}.
Variable clock : nat -> Z.
Variable getPermission : obj -> bool -> ActivityType -> string -> AuthPermission.

Local Abbreviation run := (perform clock getPermission).
Local Abbreviation permit := (resolved getPermission).

(** What a granted remove-from-collection does to a role that is found with
    relations none of which is [null] or [undefined]: when the loop has found
    a truthy item, the record with the other relations is saved twice;
    otherwise the record is saved once as it was fetched. *)
Lemma removePermission_found
    (user : obj) (id permissionId : string) (w : World Store)
    (m : obj) (relations : list value) :
  granted (permit user (RemoveFromCollection id permissionId)) = true ->
  repo_findOne id ["permissions"] (store w) = VObj m ->
  m !! "permissions" = Some (VArr relations) ->
  existsb nullish relations = false ->
  let kept :=
    VObj (<["permissions" := VArr (otherRelations permissionId relations)]> m) in
  let saved :=
    if truthy (lastWithId permissionId relations VUndefined) then kept
    else VObj m in
  (run user (RemoveFromCollection id permissionId) w).1 =
    Return (filter (permit user (RemoveFromCollection id permissionId)) saved)
  /\ newCalls w (run user (RemoveFromCollection id permissionId) w).2 =
       CallFindOne id ["permissions"]
       :: (if truthy (lastWithId permissionId relations VUndefined)
           then [CallSave kept; CallSave kept] else [CallSave (VObj m)])
  /\ store (run user (RemoveFromCollection id permissionId) w).2 =
       (if truthy (lastWithId permissionId relations VUndefined)
        then (repo_save kept (repo_save kept (store w)).1).1
        else (repo_save (VObj m) (store w)).1)
  /\ exists a,
       newActivities w (run user (RemoveFromCollection id permissionId) w).2 =
         [(REMOVE, a)]
       /\ object a = idType (VStr permissionId) "permission".
Proof.
  intros Hgranted Hfound Hpermissions Hobjects kept saved. subst saved kept.
  unfold resolved in *. cbn [permissionAction permissionResource] in *.
  run_op. rewrite Hgranted. run_op. rewrite Hfound. cbn [truthy].
  rewrite (getProp_field _ _ _ Hpermissions). run_op. cbn [iterate]. run_op.
  rewrite scanRelations_fold, Hobjects. run_op.
  destruct (truthy (lastWithId permissionId relations VUndefined));
    run_op; added; repeat split; eexists; split; reflexivity.
Qed.

(** X11.  A granted remove-from-collection of an id that a member has saves,
    twice, the record without every relation of that id: the id is no
    identity of the saved record, whose identities are the others in their
    order.  The operation returns the filter of that record and emits one
    [REMOVE] activity whose object carries the id. *)
Theorem remove_member_drops_every_match
    (user : obj) (id permissionId : string) (w : World Store)
    (m : obj) (relations : list value) :
  let kept :=
    VObj (<["permissions" := VArr (otherRelations permissionId relations)]> m) in
  granted (permit user (RemoveFromCollection id permissionId)) = true ->
  repo_findOne id ["permissions"] (store w) = VObj m ->
  m !! "permissions" = Some (VArr relations) ->
  Forall (fun relation => truthy relation = true) relations ->
  In permissionId (memberIds (VObj m)) ->
  (run user (RemoveFromCollection id permissionId) w).1 =
    Return (filter (permit user (RemoveFromCollection id permissionId)) kept)
  /\ newCalls w (run user (RemoveFromCollection id permissionId) w).2 =
       [CallFindOne id ["permissions"]; CallSave kept; CallSave kept]
  /\ ~ In permissionId (memberIds kept)
  /\ memberIds kept =
       List.filter (fun key => negb (bool_decide (key = permissionId)))
         (memberIds (VObj m))
  /\ exists a,
       newActivities w (run user (RemoveFromCollection id permissionId) w).2 =
         [(REMOVE, a)]
       /\ object a = idType (VStr permissionId) "permission".
Proof.
  intros kept Hgranted Hfound Hpermissions Hobjects Hmember.
  rewrite (memberIds_permissions _ _ Hpermissions) in Hmember |- *.
  assert (Hkept : memberIds kept =
            map relationKey (otherRelations permissionId relations))
    by (apply memberIds_permissions, lookup_insert_eq).
  destruct (removePermission_found user id permissionId w m relations
              Hgranted Hfound Hpermissions (truthy_not_nullish _ Hobjects))
    as (Hresult & Hcalls & _ & Hactivity).
  rewrite (lastWithId_truthy permissionId relations VUndefined Hobjects
             (or_intror Hmember)) in Hresult, Hcalls.
  split; [exact Hresult|]. split; [exact Hcalls|].
  rewrite Hkept, otherRelations_keys.
  split; [|split; [reflexivity | exact Hactivity]].
  intros Hin. apply filter_In in Hin as [_ Hne].
  rewrite bool_decide_eq_true_2 in Hne by reflexivity. discriminate.
Qed.

(** X12.  Removing the same id twice is removing it once, when the second
    call fetches the record that the first one saved: both calls return the
    same value, and the second saves once, the record that the first had
    saved. *)
Theorem remove_twice_is_remove_once
    (user : obj) (id permissionId : string) (w : World Store)
    (m : obj) (relations : list value) :
  let kept :=
    VObj (<["permissions" := VArr (otherRelations permissionId relations)]> m) in
  let w1 := (run user (RemoveFromCollection id permissionId) w).2 in
  granted (permit user (RemoveFromCollection id permissionId)) = true ->
  repo_findOne id ["permissions"] (store w) = VObj m ->
  m !! "permissions" = Some (VArr relations) ->
  Forall (fun relation => truthy relation = true) relations ->
  repo_findOne id ["permissions"] (store w1) = kept ->
  (run user (RemoveFromCollection id permissionId) w).1 =
    Return (filter (permit user (RemoveFromCollection id permissionId)) kept)
  /\ (run user (RemoveFromCollection id permissionId) w1).1 =
       (run user (RemoveFromCollection id permissionId) w).1
  /\ newCalls w1 (run user (RemoveFromCollection id permissionId) w1).2 =
       [CallFindOne id ["permissions"]; CallSave kept]
  /\ (exists before,
        calls w1 = before ++ [CallSave kept]).
Proof.
  intros kept w1 Hgranted Hfound Hpermissions Hobjects Hrefetch.
  pose proof (truthy_not_nullish _ Hobjects) as Hnot_nullish.
  (* the first call *)
  destruct (removePermission_found user id permissionId w m relations
              Hgranted Hfound Hpermissions Hnot_nullish)
    as (Hfirst & Hcalls & _ & _).
  cbv zeta in Hfirst, Hcalls. fold kept in Hfirst, Hcalls.
  assert (Hsaved :
    (if truthy (lastWithId permissionId relations VUndefined) then kept
     else VObj m) = kept
    /\ exists before, calls w1 = before ++ [CallSave kept]).
  { unfold newCalls in Hcalls. fold w1 in Hcalls.
    assert (Hsplit : calls w1 =
              take (length (calls w)) (calls w1)
              ++ drop (length (calls w)) (calls w1))
      by (symmetry; apply take_drop).
    rewrite Hcalls in Hsplit.
    destruct (truthy (lastWithId permissionId relations VUndefined)) eqn:Hitem.
    - split; [reflexivity|].
      eexists (_ ++ [_; _]). rewrite Hsplit, <- app_assoc. reflexivity.
    - assert (Hnone : ~ In permissionId (map relationKey relations)).
      { intros Hin.
        rewrite (lastWithId_truthy permissionId relations VUndefined Hobjects
                   (or_intror Hin)) in Hitem. discriminate. }
      assert (Hsame : VObj m = kept).
      { unfold kept. rewrite (otherRelations_all _ _ Hnone).
        rewrite (insert_id m "permissions" _ Hpermissions). reflexivity. }
      split; [exact Hsame|].
      eexists (_ ++ [_]). rewrite Hsplit, <- Hsame, <- app_assoc. reflexivity. }
  destruct Hsaved as [Hsame Hlast]. rewrite Hsame in Hfirst.
  split; [exact Hfirst|].
  (* the second call *)
  assert (Hothers : existsb nullish (otherRelations permissionId relations) = false)
    by (apply truthy_not_nullish, otherRelations_truthy, Hobjects).
  destruct (removePermission_found user id permissionId w1
              (<["permissions" := VArr (otherRelations permissionId relations)]> m)
              (otherRelations permissionId relations)
              Hgranted Hrefetch (lookup_insert_eq _ _ _) Hothers)
    as (Hsecond & Hcalls2 & _ & _).
  cbv zeta in Hsecond, Hcalls2.
  assert (Hgone :
    truthy (lastWithId permissionId (otherRelations permissionId relations)
              VUndefined) = false).
  { destruct (lastWithId_cases permissionId
                (otherRelations permissionId relations) VUndefined)
      as [-> | [Hin Hkey]]; [reflexivity|].
    pose proof (otherRelations_notMember permissionId relations Hnot_nullish)
      as Hnone.
    rewrite Forall_forall in Hnone. apply list_elem_of_In in Hin.
    destruct (Hnone _ Hin) as [_ Hne]. contradiction. }
  rewrite Hgone in Hsecond, Hcalls2. fold kept in Hsecond, Hcalls2.
  rewrite Hfirst. split; [exact Hsecond|]. split; [exact Hcalls2 | exact Hlast].
Qed.

End CollectionOutcomes.

Section CollectionFailures.

Context {Store : Type} `{Repository Store}.
Variable clock : nat -> Z.
Variable getPermission : obj -> bool -> ActivityType -> string -> AuthPermission.

Local Abbreviation run := (perform clock getPermission).
Local Abbreviation permit := (resolved getPermission).

(** X13.  A granted add-to-collection to a role that is found with its
    permissions saves the record as fetched with the item appended last (the
    record itself, not its filter), returns the filter of that record, and
    emits one [ADD] activity whose object carries the id of the role, marked
    as a permission. *)
Theorem add_saves_unfiltered_record
    (user : obj) (id : string) (data : obj) (w : World Store)
    (m : obj) (relations : list value) :
  let updated :=
    VObj (<["permissions" := VArr (relations ++ [VObj data])]> m) in
  granted (permit user (AddToCollection id data)) = true ->
  repo_findOne id ["permissions"] (store w) = VObj m ->
  m !! "permissions" = Some (VArr relations) ->
  (run user (AddToCollection id data) w).1 =
    Return (filter (permit user (AddToCollection id data)) updated)
  /\ newCalls w (run user (AddToCollection id data) w).2 =
       [CallFindOne id ["permissions"]; CallSave updated]
  /\ store (run user (AddToCollection id data) w).2 =
       (repo_save updated (store w)).1
  /\ exists a,
       newActivities w (run user (AddToCollection id data) w).2 = [(ADD, a)]
       /\ object a = idType (default VUndefined (m !! "id")) "permission".
Proof.
  intros updated Hgranted Hfound Hpermissions. subst updated.
  unfold resolved in *. cbn [permissionAction permissionResource] in *.
  run_op. rewrite Hgranted. run_op. rewrite Hfound. cbn [truthy].
  rewrite Hpermissions. run_op. cbn [getProp ownProps]. run_op. added.
  repeat split. eexists. split; [reflexivity|]. cbn [object].
  rewrite lookup_insert_ne by discriminate. reflexivity.
Qed.

(** X14.  A granted add-to-collection to a role that is found without an
    array of permissions to push onto throws a [TypeError] after the fetch:
    nothing is saved and nothing is emitted. *)
Theorem add_needs_permissions_array
    (user : obj) (id : string) (data : obj) (w : World Store) :
  granted (permit user (AddToCollection id data)) = true ->
  truthy (repo_findOne id ["permissions"] (store w)) = true ->
  permissionsArray (repo_findOne id ["permissions"] (store w)) = None ->
  run user (AddToCollection id data) w =
    (Throw TypeError,
     mkWorld (store w) (calls w ++ [CallFindOne id ["permissions"]])
       (emitted w) (S (ticks w))).
Proof.
  unfold resolved. cbn [permissionAction permissionResource].
  intros Hgranted Hfound Hnone. run_op. rewrite Hgranted. run_op.
  rewrite Hfound.
  destruct (repo_findOne id ["permissions"] (store w)) as [| | | | | |m];
    try reflexivity.
  cbn [permissionsArray] in Hnone.
  destruct (m !! "permissions") as [[| | | | | |]|]; try reflexivity.
  discriminate.
Qed.

(** X15.  A granted remove-from-collection from a role that is found throws
    a [TypeError] after the fetch, saving and emitting nothing, when the
    role's [permissions] cannot be iterated or hold a relation that is [null]
    or [undefined]. *)
Theorem remove_needs_relations
    (user : obj) (id permissionId : string) (w : World Store) :
  granted (permit user (RemoveFromCollection id permissionId)) = true ->
  truthy (repo_findOne id ["permissions"] (store w)) = true ->
  match relationsOf (repo_findOne id ["permissions"] (store w)) with
  | Some relations => existsb nullish relations = true
  | None => True
  end ->
  run user (RemoveFromCollection id permissionId) w =
    (Throw TypeError,
     mkWorld (store w) (calls w ++ [CallFindOne id ["permissions"]])
       (emitted w) (S (ticks w))).
Proof.
  unfold resolved, relationsOf. cbn [permissionAction permissionResource].
  intros Hgranted Hfound Hbroken. run_op. rewrite Hgranted. run_op.
  rewrite Hfound.
  destruct (getProp (repo_findOne id ["permissions"] (store w)) "permissions")
    as [permissions|]; run_op; [|reflexivity].
  destruct (iterate permissions) as [relations|]; run_op; [|reflexivity].
  rewrite scanRelations_fold, Hbroken. reflexivity.
Qed.

End CollectionFailures.

Section CreateOrUpdateFailure.

Context {Store : Type} `{Repository Store}.
Variable clock : nat -> Z.
Variable getPermission : obj -> bool -> ActivityType -> string -> AuthPermission.

Local Abbreviation run := (perform clock getPermission).
Local Abbreviation permit := (resolved getPermission).

(** X16.  A granted create-or-update whose filter yields [null] or
    [undefined] saves that value and emits its activity, and then throws a
    [TypeError] from the log line that reads the id of the filtered data. *)
Theorem save_throws_after_saving_nothing
    (user : obj) (data : obj) (w : World Store) :
  granted (permit user (CreateOrUpdate data)) = true ->
  nullish (filter (permit user (CreateOrUpdate data)) (VObj data)) = true ->
  (run user (CreateOrUpdate data) w).1 = Throw TypeError
  /\ newCalls w (run user (CreateOrUpdate data) w).2 =
       [CallSave (filter (permit user (CreateOrUpdate data)) (VObj data))]
  /\ length (newActivities w (run user (CreateOrUpdate data) w).2) = 1%nat.
Proof.
  unfold resolved. cbn [permissionAction permissionResource].
  destruct (truthy (default VUndefined (data !! "id"))) eqn:Hid;
    intros Hgranted Hnothing; run_op; rewrite Hid, Hgranted; run_op;
    apply getProp_nullish with (k := "id") in Hnothing; rewrite Hnothing;
    run_op; added; repeat split.
Qed.

End CreateOrUpdateFailure.

(** ** More concrete runs *)

Lemma getting_a_missing_role :
  perform sampleClock grantAll adminUser (Get "nobody") (adminWorld []) =
    (Throw (RecordNotFoundException "nobody"),
     mkWorld [roleRow "admin" []] [CallFindOne "nobody" ["permissions"]] [] 1).
Proof.
  apply (missing_record_is_not_found sampleClock grantAll adminUser
           (Get "nobody") (adminWorld []));
    reflexivity.
Defined.

Lemma deleting_the_only_role :
  (perform sampleClock grantAll adminUser (Delete "admin") (adminWorld [])).1 =
    Return (VBool true)
  /\ store (perform sampleClock grantAll adminUser (Delete "admin")
              (adminWorld [])).2 = [].
Proof.
  destruct (delete_removes_fetched_record sampleClock grantAll adminUser
              "admin" (adminWorld []))
    as (Hresult & _ & Hstore & _); [reflexivity | reflexivity |].
  split; [exact Hresult | exact Hstore].
Defined.

Lemma listing_two_roles :
  (perform sampleClock grantAll adminUser List
     (sampleWorld [roleRow "admin" []; roleRow "user" []])).1 =
    Return (VObj (<["data" := VArr [roleRow "admin" []; roleRow "user" []]]>
                  (<["length" := VNum 2]> (<["total" := VNum 2]> ∅)))).
Proof.
  refine (proj1 (list_counts_fetched_rows sampleClock grantAll adminUser
                   (sampleWorld [roleRow "admin" []; roleRow "user" []])
                   [roleRow "admin" []; roleRow "user" []] _ _));
    reflexivity.
Defined.

Lemma getting_the_admin_role :
  (perform sampleClock grantAll adminUser (Get "admin")
     (adminWorld [VObj readAny])).1 = Return (roleRow "admin" [VObj readAny]).
Proof.
  refine (proj1 (get_returns_filtered_record sampleClock grantAll adminUser
                   "admin" (adminWorld [VObj readAny]) _ _));
    reflexivity.
Defined.

Lemma getting_the_admin_permissions :
  exists permissions a,
    getProp (roleRow "admin" [VObj readAny]) "permissions" = Some permissions
    /\ (perform sampleClock grantAll adminUser (GetCollection "admin")
          (adminWorld [VObj readAny])).1 = Return (hideSecret permissions)
    /\ newActivities (adminWorld [VObj readAny])
         (perform sampleClock grantAll adminUser (GetCollection "admin")
            (adminWorld [VObj readAny])).2 = [(READ, a)]
    /\ object a = VNull.
Proof.
  destruct (collection_is_filtered_alone sampleClock grantAll adminUser
              "admin" (adminWorld [VObj readAny]))
    as (permissions & a & Hread & Hresult & Hactivity & Hobject);
    [reflexivity | reflexivity |].
  exists permissions, a.
  split; [exact Hread|]. split; [exact Hresult|].
  split; [exact Hactivity | exact Hobject].
Defined.

Lemma removing_one_of_two_permissions :
  newCalls (adminWorld [VObj readAny; VObj createAny])
    (perform sampleClock grantAll adminUser (RemoveFromCollection "admin" "1")
       (adminWorld [VObj readAny; VObj createAny])).2 =
    [CallFindOne "admin" ["permissions"];
     CallSave (roleRow "admin" [VObj createAny]);
     CallSave (roleRow "admin" [VObj createAny])].
Proof.
  refine (proj1 (proj2 (remove_member_drops_every_match sampleClock grantAll
            adminUser "admin" "1" (adminWorld [VObj readAny; VObj createAny])
            (roleFields "admin" [VObj readAny; VObj createAny])
            [VObj readAny; VObj createAny] _ _ _ _ _)));
    try reflexivity.
  - repeat constructor.
  - vm_compute. left. reflexivity.
Defined.

Lemma removing_a_permission_twice :
  (perform sampleClock grantAll adminUser (RemoveFromCollection "admin" "1")
     (perform sampleClock grantAll adminUser (RemoveFromCollection "admin" "1")
        (adminWorld [VObj readAny; VObj createAny])).2).1 =
    (perform sampleClock grantAll adminUser (RemoveFromCollection "admin" "1")
       (adminWorld [VObj readAny; VObj createAny])).1.
Proof.
  refine (proj1 (proj2 (remove_twice_is_remove_once sampleClock grantAll
            adminUser "admin" "1" (adminWorld [VObj readAny; VObj createAny])
            (roleFields "admin" [VObj readAny; VObj createAny])
            [VObj readAny; VObj createAny] _ _ _ _ _)));
    try reflexivity.
  repeat constructor.
Defined.

Lemma adding_a_second_permission :
  newCalls (adminWorld [VObj readAny])
    (perform sampleClock grantAll adminUser (AddToCollection "admin" createAny)
       (adminWorld [VObj readAny])).2 =
    [CallFindOne "admin" ["permissions"];
     CallSave (roleRow "admin" [VObj readAny; VObj createAny])].
Proof.
  refine (proj1 (proj2 (add_saves_unfiltered_record sampleClock grantAll
            adminUser "admin" createAny (adminWorld [VObj readAny])
            (roleFields "admin" [VObj readAny]) [VObj readAny] _ _ _)));
    reflexivity.
Defined.

Lemma adding_to_a_role_without_relations :
  perform sampleClock grantAll adminUser (AddToCollection "admin" readAny)
    (sampleWorld [bareRole "admin"]) =
    (Throw TypeError,
     mkWorld [bareRole "admin"] [CallFindOne "admin" ["permissions"]] [] 1).
Proof.
  apply (add_needs_permissions_array sampleClock grantAll adminUser "admin"
           readAny (sampleWorld [bareRole "admin"]));
    reflexivity.
Defined.

Lemma removing_from_a_role_without_relations :
  perform sampleClock grantAll adminUser (RemoveFromCollection "admin" "1")
    (sampleWorld [bareRole "admin"]) =
    (Throw TypeError,
     mkWorld [bareRole "admin"] [CallFindOne "admin" ["permissions"]] [] 1).
Proof.
  apply (remove_needs_relations sampleClock grantAll adminUser "admin" "1"
           (sampleWorld [bareRole "admin"]));
    first [reflexivity | exact I].
Defined.

Lemma saving_with_a_filter_that_yields_null :
  (perform sampleClock grantNothingVisible adminUser (CreateOrUpdate newRole)
     (sampleWorld [])).1 = Throw TypeError
  /\ store (perform sampleClock grantNothingVisible adminUser
              (CreateOrUpdate newRole) (sampleWorld [])).2 = [VNull].
Proof.
  split; [|reflexivity].
  apply (save_throws_after_saving_nothing sampleClock grantNothingVisible
           adminUser newRole (sampleWorld []));
    reflexivity.
Defined.

(** ** Create-or-update and the object handed to the repository *)

Lemma handedBack_untouched {Store : Type} (record : value) (s : Store) :
  handedBack (fun v _ => v) record s = record.
Proof. destruct record; reflexivity. Qed.

Lemma nullish_handedBack {Store : Type} (saveWrites : value -> Store -> value)
    (record : value) (s : Store) :
  nullish record = true -> handedBack saveWrites record s = record.
Proof. destruct record; cbn; congruence. Qed.

Section InPlaceSave.

Context {Store : Type} `{Repository Store}.
Variable clock : nat -> Z.
Variable getPermission : obj -> bool -> ActivityType -> string -> AuthPermission.
Variable saveWrites : value -> Store -> value.

Local Abbreviation permit := (resolved getPermission).

(** With a repository that leaves the object it is handed as it was,
    [saveInPlace] is [save]. *)
Lemma saveInPlace_untouched (user : obj) (data : obj) (w : World Store) :
  saveInPlace clock getPermission (fun v _ => v) user data w =
    save clock getPermission user data w.
Proof.
  unfold saveInPlace, saveRecordInPlace. run_op.
  destruct (granted _); run_op; [rewrite handedBack_untouched|]; reflexivity.
Qed.


End InPlaceSave.



(** ** Operations that throw *)

Section Failures.

Context {Store : Type} `{Repository Store}.
Variable clock : nat -> Z.
Variable getPermission : obj -> bool -> ActivityType -> string -> AuthPermission.

Local Abbreviation run := (perform clock getPermission).
Local Abbreviation addAny := (addPermissionAny clock getPermission).

(** On an object, [addPermissionAny] is [addPermission]. *)
Lemma addPermissionAny_object
    (user : obj) (id : string) (data : obj) (w : World Store) :
  addAny user id (VObj data) w =
    addPermission clock getPermission user id data w.
Proof.
  unfold addPermissionAny. run_op.
  destruct (granted _); run_op; [|reflexivity].
  destruct (repo_findOne id ["permissions"] (store w)) as [| | | | | |m];
    try reflexivity.
  cbn [truthy]. destruct (m !! "permissions") as [[| | | | |l|]|];
    try reflexivity.
Qed.


End Failures.


(** The second exception of X4 at work: adding [null] saves the role with
    [null] among its permissions, emits, and then throws. *)
Example adding_null_saves_then_throws :
  let added :=
    addPermissionAny sampleClock grantAll adminUser "admin" VNull
      (adminWorld []) in
  added.1 = Throw TypeError
  /\ calls added.2 =
       [CallFindOne "admin" ["permissions"];
        CallSave (roleRow "admin" [VNull])]
  /\ length (emitted added.2) = 1%nat.
Proof. cbv zeta. repeat split. Qed.
